(** * Breathing Bubble: the frame loop of [src/pages/Index.tsx]

    A shallow embedding of the component's state, its per-frame update
    ([animate]), the particle backdrop ([initParticles], [drawParticles],
    [resizeCanvas]) and the input handlers, followed by the properties of
    the phase engine, the sync score and the particles.

    JavaScript numbers are idealised as exact rationals ([Q]): every
    arithmetic operation of the source is the corresponding exact
    operation, comparisons are the source's comparisons, and numeric
    results are compared with [==].  Drawing commands issued on the 2D
    context have no effect on the state and are left out. *)

From Stdlib Require Import QArith Qround Qminmax Lqa Lia ZArith.
From Stdlib Require Import List String Bool.
Import ListNotations.

Open Scope Q_scope.

(** ** Numbers *)

Module Num.

(** [a < b] on numbers, as a boolean. *)
Definition ltb (a b : Q) : bool :=
  (Qnum a * QDen b <? Qnum b * QDen a)%Z.

(** [Math.trunc]: rounding toward zero. *)
Definition trunc (a : Q) : Z := Z.quot (Qnum a) (Zpos (Qden a)).

(** The [%] operator: the remainder has the sign of the dividend.
    (For [b = 0] JavaScript gives NaN; the only divisor in the source
    is [TOTAL_CYCLE].) *)
Definition rem (a b : Q) : Q := a - b * inject_Z (trunc (a / b)).

(** [Math.pow(a, 3)]. *)
Definition pow3 (a : Q) : Q := a * a * a.

(** [Math.max(0, Math.min(100, a))]. *)
Definition clamp100 (a : Q) : Q := Qmax 0 (Qmin 100 a).

End Num.

(** ** Breathing cycle times (in seconds) *)

Module CYCLE.
Definition inhale : Q := 4.
Definition hold : Q := 2.
Definition exhale : Q := 6.
Definition rest : Q := 2.
End CYCLE.

Definition TOTAL_CYCLE : Q :=
  CYCLE.inhale + CYCLE.hold + CYCLE.exhale + CYCLE.rest.

(** ** Easing functions *)

Definition easeInOutCubic (t : Q) : Q :=
  if Num.ltb t 0.5
  then 4 * t * t * t
  else 1 - Num.pow3 (- (2) * t + 2) / 2.

Definition easeOutQuad (t : Q) : Q :=
  1 - (1 - t) * (1 - t).

(** ** The phase engine

    The values [animate] derives from [cycleTime]: the phase name, the
    progress within the phase, the bubble scale and the glow intensity. *)

Record PhaseParams := {
  currentPhase : string;
  phaseProgress : Q;
  bubbleScale : Q;
  glowIntensity : Q
}.

Definition phaseParams (cycleTime : Q) : PhaseParams :=
  if Num.ltb cycleTime CYCLE.inhale then
    let progress := cycleTime / CYCLE.inhale in
    let eased := easeInOutCubic progress in
    {| currentPhase := "Inhale";
       phaseProgress := progress;
       bubbleScale := 1 + eased * 0.5;
       glowIntensity := 0.5 + eased * 0.5 |}
  else if Num.ltb cycleTime (CYCLE.inhale + CYCLE.hold) then
    {| currentPhase := "Hold";
       phaseProgress := (cycleTime - CYCLE.inhale) / CYCLE.hold;
       bubbleScale := 1.5;
       glowIntensity := 1 |}
  else if Num.ltb cycleTime (CYCLE.inhale + CYCLE.hold + CYCLE.exhale) then
    let progress := (cycleTime - CYCLE.inhale - CYCLE.hold) / CYCLE.exhale in
    let eased := easeOutQuad progress in
    {| currentPhase := "Exhale";
       phaseProgress := progress;
       bubbleScale := 1.5 - eased * 0.5;
       glowIntensity := 1 - eased * 0.5 |}
  else
    {| currentPhase := "Rest";
       phaseProgress :=
         (cycleTime - CYCLE.inhale - CYCLE.hold - CYCLE.exhale) / CYCLE.rest;
       bubbleScale := 1;
       glowIntensity := 0.5 |}.

(** [cycleTime] as [animate] computes it from the elapsed seconds. *)
Definition cycleTimeOf (elapsed : Q) : Q := Num.rem elapsed TOTAL_CYCLE.

(** The phase name [animate] reports at [elapsed] seconds. *)
Definition phaseAt (elapsed : Q) : string :=
  currentPhase (phaseParams (cycleTimeOf elapsed)).

(** ** Particles *)

Module Particle.
Record t := {
  x : Q;
  y : Q;
  vx : Q;
  vy : Q;
  size : Q;
  color : string;
  alpha : Q
}.
End Particle.

(** The drawing surface: [canvas.width] and [canvas.height] are unsigned
    integers. *)
Record Canvas := {
  width : N;
  height : N
}.

Definition widthQ (c : Canvas) : Q := inject_Z (Z.of_N (width c)).
Definition heightQ (c : Canvas) : Q := inject_Z (Z.of_N (height c)).

Definition colors : list string := ["#5FD4D6"; "#A78BFA"; "#F9A8D4"]%string.

(** The particle pushed by iteration [i] of the loop of [initParticles].
    [random k] is the value of the [k]-th call of [Math.random] made by
    this run of [initParticles]; the fields of the literal are evaluated
    in order, seven calls per particle.  An index outside [colors] reads
    [undefined]; it cannot occur for values of [Math.random], which lie
    in [0, 1). *)
Definition newParticle (canvas : Canvas) (random : nat -> Q) (i : nat)
  : Particle.t :=
  let r (k : nat) := random (7 * i + k)%nat in
  {| Particle.x := r 0%nat * widthQ canvas;
     Particle.y := r 1%nat * heightQ canvas;
     Particle.vx := (r 2%nat - 0.5) * 0.5;
     Particle.vy := (r 3%nat - 0.5) * 0.5;
     Particle.size := r 4%nat * 3 + 1;
     Particle.color :=
       nth (Z.to_nat
              (Qfloor (r 5%nat * inject_Z (Z.of_nat (List.length colors)))))
           colors "undefined"%string;
     Particle.alpha := r 6%nat * 0.3 + 0.1 |}.

Definition initParticles (canvas : Canvas) (random : nat -> Q)
  : list Particle.t :=
  map (newParticle canvas random) (seq 0 30).

(** The body of the [forEach] of [drawParticles]: update position, wrap
    around screen. *)
Definition moveParticle (canvas : Canvas) (p : Particle.t) : Particle.t :=
  let x1 := Particle.x p + Particle.vx p in
  let y1 := Particle.y p + Particle.vy p in
  let x2 := if Num.ltb x1 0 then widthQ canvas else x1 in
  let x3 := if Num.ltb (widthQ canvas) x2 then 0 else x2 in
  let y2 := if Num.ltb y1 0 then heightQ canvas else y1 in
  let y3 := if Num.ltb (heightQ canvas) y2 then 0 else y2 in
  {| Particle.x := x3;
     Particle.y := y3;
     Particle.vx := Particle.vx p;
     Particle.vy := Particle.vy p;
     Particle.size := Particle.size p;
     Particle.color := Particle.color p;
     Particle.alpha := Particle.alpha p |}.

Definition drawParticles (canvas : Canvas) (particles : list Particle.t)
  : list Particle.t :=
  map (moveParticle canvas) particles.

(** ** Session state

    The component's [useState] cells and [useRef] cells, and the canvas. *)

Record State := {
  isActive : bool;
  phase : string;
  syncPercentage : Q;
  startTimeRef : Q;
  isPressingRef : bool;
  pressStartTimeRef : Q;
  particlesRef : list Particle.t;
  canvas : Canvas
}.

(** The initial values of the hooks; the canvas has the default size of
    an HTML canvas until [resizeCanvas] first runs. *)
Definition initialState : State :=
  {| isActive := false;
     phase := "Ready";
     syncPercentage := 100;
     startTimeRef := 0;
     isPressingRef := false;
     pressStartTimeRef := 0;
     particlesRef := [];
     canvas := {| width := 300; height := 150 |} |}.

Definition resizeCanvas (innerWidth innerHeight : N) (random : nat -> Q)
  (s : State) : State :=
  let canvas' := {| width := innerWidth; height := innerHeight |} in
  {| isActive := isActive s;
     phase := phase s;
     syncPercentage := syncPercentage s;
     startTimeRef := startTimeRef s;
     isPressingRef := isPressingRef s;
     pressStartTimeRef := pressStartTimeRef s;
     particlesRef :=
       if (List.length (particlesRef s) =? 0)%nat
       then initParticles canvas' random
       else particlesRef s;
     canvas := canvas' |}.

(** The session origin [animate] uses at [timestamp]: an unset origin
    (0) is established by the frame itself. *)
Definition startTimeAt (timestamp : Q) (s : State) : Q :=
  if Qeq_bool (startTimeRef s) 0 then timestamp else startTimeRef s.

Definition elapsedAt (timestamp : Q) (s : State) : Q :=
  (timestamp - startTimeAt timestamp s) / 1000.

(** The updater passed to [setSyncPercentage]. *)
Definition syncUpdate (isCorrectPhase : bool) (prev : Q) : Q :=
  let adjustment : Q := if isCorrectPhase then 1 else - (2) in
  Num.clamp100 (prev + adjustment * 0.1).

Definition isCorrectPhase (currentPhase : string) : bool :=
  let targetPhase :=
    if (currentPhase =? "Inhale")%string then "Inhale"%string
    else if (currentPhase =? "Hold")%string then "Hold"%string
    else "None"%string in
  (targetPhase =? "Inhale")%string || (targetPhase =? "Hold")%string.

(** One frame callback. *)
Definition animate (timestamp : Q) (s : State) : State :=
  if negb (isActive s) then s
  else
    let cycleTime := cycleTimeOf (elapsedAt timestamp s) in
    let params := phaseParams cycleTime in
    {| isActive := isActive s;
       phase := currentPhase params;
       syncPercentage :=
         if isPressingRef s
         then syncUpdate (isCorrectPhase (currentPhase params))
                         (syncPercentage s)
         else syncPercentage s;
       startTimeRef := startTimeAt timestamp s;
       isPressingRef := isPressingRef s;
       pressStartTimeRef := pressStartTimeRef s;
       particlesRef := drawParticles (canvas s) (particlesRef s);
       canvas := canvas s |}.

Definition handleStart (s : State) : State :=
  {| isActive := true;
     phase := phase s;
     syncPercentage := 100;
     startTimeRef := 0;
     isPressingRef := isPressingRef s;
     pressStartTimeRef := pressStartTimeRef s;
     particlesRef := particlesRef s;
     canvas := canvas s |}.

Definition handleReset (s : State) : State :=
  {| isActive := false;
     phase := "Ready";
     syncPercentage := 100;
     startTimeRef := 0;
     isPressingRef := false;
     pressStartTimeRef := pressStartTimeRef s;
     particlesRef := particlesRef s;
     canvas := canvas s |}.

(** [now] is the value of [performance.now()]. *)
Definition handleMouseDown (now : Q) (s : State) : State :=
  {| isActive := isActive s;
     phase := phase s;
     syncPercentage := syncPercentage s;
     startTimeRef := startTimeRef s;
     isPressingRef := true;
     pressStartTimeRef := now;
     particlesRef := particlesRef s;
     canvas := canvas s |}.

Definition handleMouseUp (s : State) : State :=
  {| isActive := isActive s;
     phase := phase s;
     syncPercentage := syncPercentage s;
     startTimeRef := startTimeRef s;
     isPressingRef := false;
     pressStartTimeRef := pressStartTimeRef s;
     particlesRef := particlesRef s;
     canvas := canvas s |}.

(** ** Events

    What the host delivers to the component: pointer and touch edges,
    frame callbacks, the two buttons, and runs of [resizeCanvas] (the
    window's resize listener and the call made when the effect is set
    up). *)

Inductive Event :=
| PressBegin (now : Q)
| PressEnd
| Frame (timestamp : Q)
| Start
| Reset
| Resize (innerWidth innerHeight : N) (random : nat -> Q).

Definition step (s : State) (e : Event) : State :=
  match e with
  | PressBegin now => handleMouseDown now s
  | PressEnd => handleMouseUp s
  | Frame timestamp => animate timestamp s
  | Start => handleStart s
  | Reset => handleReset s
  | Resize w h random => resizeCanvas w h random s
  end.

Definition run (s : State) (events : list Event) : State :=
  fold_left step events s.

(** The fields of a particle other than its position. *)
Definition attributes (p : Particle.t) : Q * Q * Q * string * Q :=
  (Particle.vx p, Particle.vy p, Particle.size p, Particle.color p,
   Particle.alpha p).

(** [e mod totalPeriod] in the mathematical sense: the remainder of
    flooring division, as the periodicity property reads it. *)
Definition modPeriod (e : Q) : Q :=
  e - TOTAL_CYCLE * inject_Z (Qfloor (e / TOTAL_CYCLE)).

(** ** Predicates used by the properties *)

(** The particle lies in the half-open rectangle
    [0, width) x [0, height). *)
Definition inSurface (c : Canvas) (p : Particle.t) : Prop :=
  (0 <= Particle.x p /\ Particle.x p < widthQ c) /\
  (0 <= Particle.y p /\ Particle.y p < heightQ c).

(** The particle lies in the closed rectangle [0, width] x [0, height]. *)
Definition onSurface (c : Canvas) (p : Particle.t) : Prop :=
  (0 <= Particle.x p /\ Particle.x p <= widthQ c) /\
  (0 <= Particle.y p /\ Particle.y p <= heightQ c).

(** Events that neither run a frame nor reset the session. *)
Definition betweenTicks (e : Event) : bool :=
  match e with
  | Frame _ | Reset => false
  | _ => true
  end.

(** "The current phase is Inhale or Hold". *)
Definition inhaleOrHold (p : string) : bool :=
  ((p =? "Inhale") || (p =? "Hold"))%string.

(** A particle near the left edge drifting left, as [initParticles] can
    produce on an 800 x 600 surface. *)
Definition edgeCanvas : Canvas := {| width := 800; height := 600 |}.

Definition edgeParticle : Particle.t :=
  {| Particle.x := 0.1;
     Particle.y := 10;
     Particle.vx := - 0.2;
     Particle.vy := 0.1;
     Particle.size := 2;
     Particle.color := "#5FD4D6";
     Particle.alpha := 0.2 |}.

(** A source of random numbers that always answers [0.25]. *)
Definition quarter (_ : nat) : Q := 0.25.

(** The sync score lies in [0, 100]. *)
Definition syncInRange (s : State) : Prop :=
  0 <= syncPercentage s /\ syncPercentage s <= 100.

(** A running session, two seconds into its cycle, with the pointer
    held down and a lone particle on the surface. *)
Definition pressingState : State :=
  {| isActive := true;
     phase := "Inhale";
     syncPercentage := 50;
     startTimeRef := 1000;
     isPressingRef := true;
     pressStartTimeRef := 2500;
     particlesRef := [edgeParticle];
     canvas := edgeCanvas |}.

(** ** The bubble drawn by a frame

    What [animate] hands to the 2D context for the bubble: the three
    filled circles (outer glow, main bubble, inner highlight) and the
    color stops of their radial gradients, as (offset, alpha) pairs. *)

Record Arc := {
  arcX : Q;
  arcY : Q;
  arcRadius : Q
}.

Record BubbleLayers := {
  glowArc : Arc;
  glowStops : list (Q * Q);
  bodyArc : Arc;
  bodyStops : list (Q * Q);
  highlightArc : Arc;
  highlightStops : list (Q * Q)
}.

Definition drawBubble (canvas : Canvas) (params : PhaseParams)
  : BubbleLayers :=
  let centerX := widthQ canvas / 2 in
  let centerY := heightQ canvas / 2 in
  let baseRadius := Qmin (widthQ canvas) (heightQ canvas) / 8 in
  let radius := baseRadius * bubbleScale params in
  let glow := glowIntensity params in
  {| glowArc :=
       {| arcX := centerX; arcY := centerY; arcRadius := radius * 1.8 |};
     glowStops := [(0, glow * 0.3); (0.5, glow * 0.15); (1, 0)];
     bodyArc := {| arcX := centerX; arcY := centerY; arcRadius := radius |};
     bodyStops :=
       [(0, 0.8 + glow * 0.2); (0.5, 0.7 + glow * 0.3);
        (1, 0.6 + glow * 0.4)];
     highlightArc :=
       {| arcX := centerX - radius * 0.3;
          arcY := centerY - radius * 0.3;
          arcRadius := radius * 0.5 |};
     highlightStops := [(0, 0.6); (1, 0)] |}.

(** The bubble an active frame draws at [timestamp]. *)
Definition frameBubble (timestamp : Q) (s : State) : BubbleLayers :=
  drawBubble (canvas s) (phaseParams (cycleTimeOf (elapsedAt timestamp s))).

(** The circle lies within the surface. *)
Definition arcOnCanvas (c : Canvas) (a : Arc) : Prop :=
  (0 <= arcX a - arcRadius a /\ arcX a + arcRadius a <= widthQ c) /\
  (0 <= arcY a - arcRadius a /\ arcY a + arcRadius a <= heightQ c).

(** ** The overlay

    The parts of the rendered overlay that depend on the state: the
    phase indicator, the sync percentage and the instructions are shown
    while the session is active, and one of the two buttons is shown. *)

(** [Math.round]: the nearest integer, halves toward plus infinity. *)
Definition mathRound (a : Q) : Z := Qfloor (a + 0.5).

Record Overlay := {
  phaseIndicator : option string;
  syncIndicator : option Z;
  instructions : bool;
  button : string
}.

Definition render (s : State) : Overlay :=
  {| phaseIndicator := if isActive s then Some (phase s) else None;
     syncIndicator :=
       if isActive s then Some (mathRound (syncPercentage s)) else None;
     instructions := isActive s;
     button := if negb (isActive s) then "Start Breathing" else "Reset" |}.

(** ** Further predicates and sample inputs *)

Definition notStart (e : Event) : bool :=
  match e with
  | Start => false
  | _ => true
  end.

Definition isResize (e : Event) : bool :=
  match e with
  | Resize _ _ _ => true
  | _ => false
  end.



(** The fields of a freshly made particle are in the ranges that
    [Math.random] in [0, 1) gives them. *)
Definition freshParticle (c : Canvas) (p : Particle.t) : Prop :=
  inSurface c p /\
  (- 0.25 <= Particle.vx p /\ Particle.vx p < 0.25) /\
  (- 0.25 <= Particle.vy p /\ Particle.vy p < 0.25) /\
  (1 <= Particle.size p /\ Particle.size p < 4) /\
  In (Particle.color p) colors /\
  (0.1 <= Particle.alpha p /\ Particle.alpha p < 0.4).

(** * Properties *)

(** ** Comparisons and remainders *)

Section NumFacts.

Lemma ltb_lt (a b : Q) : Num.ltb a b = true <-> a < b.
Proof. unfold Num.ltb, Qlt. apply Z.ltb_lt. Qed.

Lemma ltb_ge (a b : Q) : Num.ltb a b = false <-> b <= a.
Proof. unfold Num.ltb, Qle. apply Z.ltb_ge. Qed.

Lemma ltb_compat (a a' b b' : Q) :
  a == a' -> b == b' -> Num.ltb a b = Num.ltb a' b'.
Proof.
  intros Ha Hb.
  destruct (Num.ltb a' b') eqn:E.
  - apply ltb_lt. apply ltb_lt in E. now rewrite Ha, Hb.
  - apply ltb_ge. apply ltb_ge in E. now rewrite Ha, Hb.
Qed.

(** An integer squeezed around a number of [0, 1) is 0. *)
Lemma unit_floor (q : Q) (z : Z) :
  inject_Z z <= q -> q < inject_Z z + 1 -> 0 <= q -> q < 1 -> z = 0%Z.
Proof.
  intros Hlo Hhi H0 H1.
  assert (Hz1 : inject_Z z < inject_Z 1) by (change (inject_Z 1) with 1; lra).
  assert (Hz0 : inject_Z (-1) < inject_Z z)
    by (change (inject_Z (-1)) with (-1); lra).
  rewrite <- Zlt_Qlt in Hz1, Hz0. lia.
Qed.

Lemma floor_plus_1 (q : Q) : q < inject_Z (Qfloor q) + 1.
Proof.
  pose proof (Qlt_floor q) as H.
  rewrite inject_Z_plus in H. exact H.
Qed.

(** Truncation and flooring agree on non-negative numbers. *)
Lemma trunc_floor (a : Q) : 0 <= a -> Num.trunc a = Qfloor a.
Proof.
  destruct a as [n d]. unfold Qle, Num.trunc, Qfloor. simpl.
  intros H. apply Z.quot_div_nonneg; lia.
Qed.

Lemma trunc_unit (q : Q) : 0 <= q -> q < 1 -> Num.trunc q = 0%Z.
Proof.
  intros H0 H1. rewrite trunc_floor by assumption.
  apply (unit_floor q); auto using Qfloor_le, floor_plus_1.
Qed.

Lemma div_period (e : Q) : e == TOTAL_CYCLE * (e / TOTAL_CYCLE).
Proof.
  unfold TOTAL_CYCLE, CYCLE.inhale, CYCLE.hold, CYCLE.exhale, CYCLE.rest.
  field.
Qed.

Lemma period_14 : TOTAL_CYCLE == 14.
Proof. reflexivity. Qed.

(** The mathematical remainder lies in [0, TOTAL_CYCLE). *)
Lemma modPeriod_range (e : Q) : 0 <= modPeriod e /\ modPeriod e < TOTAL_CYCLE.
Proof.
  unfold modPeriod.
  pose proof (Qfloor_le (e / TOTAL_CYCLE)) as Hlo.
  pose proof (floor_plus_1 (e / TOTAL_CYCLE)) as Hhi.
  pose proof (div_period e) as He.
  pose proof period_14 as HT.
  set (q := e / TOTAL_CYCLE) in *.
  set (f := inject_Z (Qfloor q)) in *.
  rewrite HT in *. split; lra.
Qed.

(** On non-negative elapsed times [%] is the mathematical remainder. *)
Lemma rem_modPeriod (e : Q) : 0 <= e -> cycleTimeOf e == modPeriod e.
Proof.
  intros He. unfold cycleTimeOf, Num.rem, modPeriod.
  rewrite trunc_floor; [reflexivity|].
  pose proof (div_period e) as Hd. pose proof period_14 as HT.
  set (q := e / TOTAL_CYCLE) in *. rewrite HT in Hd. lra.
Qed.

(** [%] leaves a cycle time of [0, TOTAL_CYCLE) as it is. *)
Lemma rem_small (c : Q) : 0 <= c -> c < TOTAL_CYCLE -> cycleTimeOf c == c.
Proof.
  intros H0 H1. unfold cycleTimeOf, Num.rem.
  rewrite trunc_unit.
  - change (inject_Z 0) with 0. ring.
  - pose proof (div_period c) as Hd. pose proof period_14 as HT.
    set (q := c / TOTAL_CYCLE) in *. rewrite HT in Hd. lra.
  - pose proof (div_period c) as Hd. pose proof period_14 as HT.
    set (q := c / TOTAL_CYCLE) in *. rewrite HT in Hd, H1. lra.
Qed.

End NumFacts.

(** ** The phase engine *)

(** The phase name depends on the value of the cycle time only. *)
Lemma currentPhase_compat (a b : Q) :
  a == b -> currentPhase (phaseParams a) = currentPhase (phaseParams b).
Proof.
  intros H. unfold phaseParams.
  rewrite (ltb_compat a b CYCLE.inhale CYCLE.inhale H (Qeq_refl _)).
  rewrite (ltb_compat a b (CYCLE.inhale + CYCLE.hold) _ H (Qeq_refl _)).
  rewrite (ltb_compat a b (CYCLE.inhale + CYCLE.hold + CYCLE.exhale) _ H
             (Qeq_refl _)).
  repeat (destruct (Num.ltb b _); [reflexivity|]). reflexivity.
Qed.

(** C4. With the durations inhale=4, hold=2, exhale=6, rest=2: at cycle
    time 4 the phase is Hold and the bubble scale is exactly 1.5; at
    cycle time 6 the phase is Exhale and the scale is exactly 1.5; at
    cycle time 12 the phase is Rest and the scale is exactly 1. *)
Theorem phase_boundaries :
  (CYCLE.inhale == 4 /\ CYCLE.hold == 2 /\
   CYCLE.exhale == 6 /\ CYCLE.rest == 2) /\
  (currentPhase (phaseParams 4) = "Hold"%string /\
   bubbleScale (phaseParams 4) == 1.5) /\
  (currentPhase (phaseParams 6) = "Exhale"%string /\
   bubbleScale (phaseParams 6) == 1.5) /\
  (currentPhase (phaseParams 12) = "Rest"%string /\
   bubbleScale (phaseParams 12) == 1).
Proof.
  repeat split; reflexivity.
Qed.

(** C5. For every non-negative elapsed time [e], the phase computed for
    [e] is the phase computed for [e mod totalPeriod], where
    [totalPeriod = inhale + hold + exhale + rest = 14] seconds. *)
Theorem phase_periodic (e : Q) :
  0 <= e ->
  TOTAL_CYCLE == 14 /\ phaseAt e = phaseAt (modPeriod e).
Proof.
  intros He. split; [exact period_14|].
  unfold phaseAt. apply currentPhase_compat.
  destruct (modPeriod_range e) as [H0 H1].
  rewrite (rem_small (modPeriod e) H0 H1).
  now apply rem_modPeriod.
Qed.

Lemma phase_periodic_witness :
  0 <= 33 /\ modPeriod 33 == 5 /\ phaseAt 33 = "Hold"%string /\
  phaseAt 33 = phaseAt (modPeriod 33).
Proof.
  split; [discriminate|]. split; [reflexivity|]. split; [reflexivity|].
  apply (phase_periodic 33). discriminate.
Defined.

(** ** The inhale ramp *)

Lemma prod3_nonneg (a b c : Q) :
  0 <= a -> 0 <= b -> 0 <= c -> 0 <= a * (b * c).
Proof.
  intros Ha Hb Hc. repeat apply Qmult_le_0_compat; assumption.
Qed.

Lemma cube_mono (a b : Q) : 0 <= a -> a <= b -> a * a * a <= b * b * b.
Proof.
  intros Ha Hab.
  assert (H1 : 0 <= (b - a) * (a * a)) by (apply prod3_nonneg; lra).
  assert (H2 : 0 <= (b - a) * (a * b)) by (apply prod3_nonneg; lra).
  assert (H3 : 0 <= (b - a) * (b * b)) by (apply prod3_nonneg; lra).
  assert (E : b * b * b - a * a * a
              == (b - a) * (a * a) + (b - a) * (a * b) + (b - a) * (b * b))
    by ring.
  lra.
Qed.

Lemma cube_unit (a : Q) :
  0 <= a -> a <= 1 -> 0 <= a * a * a /\ a * a * a <= 1.
Proof.
  intros H0 H1. split.
  - pose proof (cube_mono 0 a). lra.
  - pose proof (cube_mono a 1). lra.
Qed.

Lemma easeInOutCubic_mono (s t : Q) :
  0 <= s -> s <= t -> t <= 1 -> easeInOutCubic s <= easeInOutCubic t.
Proof.
  intros H0 Hst H1. unfold easeInOutCubic, Num.pow3, Qdiv.
  change (/ 2) with (1 # 2).
  destruct (Num.ltb s 0.5) eqn:Es; destruct (Num.ltb t 0.5) eqn:Et.
  - apply ltb_lt in Es, Et. pose proof (cube_mono s t H0 Hst). lra.
  - apply ltb_lt in Es. apply ltb_ge in Et.
    assert (Hs : s * s * s <= 0.5 * 0.5 * 0.5) by (apply cube_mono; lra).
    assert (Ht : (- (2) * t + 2) * (- (2) * t + 2) * (- (2) * t + 2)
                 <= 1 * 1 * 1) by (apply cube_mono; lra).
    lra.
  - apply ltb_ge in Es. apply ltb_lt in Et. lra.
  - pose proof (cube_mono (- (2) * t + 2) (- (2) * s + 2)). lra.
Qed.

Lemma easeInOutCubic_range (t : Q) :
  0 <= t -> t <= 1 -> 0 <= easeInOutCubic t /\ easeInOutCubic t <= 1.
Proof.
  intros H0 H1. unfold easeInOutCubic, Num.pow3, Qdiv.
  change (/ 2) with (1 # 2).
  destruct (Num.ltb t 0.5) eqn:Et.
  - apply ltb_lt in Et.
    assert (Hc : t * t * t <= 0.5 * 0.5 * 0.5) by (apply cube_mono; lra).
    pose proof (cube_mono 0 t). lra.
  - apply ltb_ge in Et.
    destruct (cube_unit (- (2) * t + 2)); lra.
Qed.

Lemma inhale_branch (e : Q) :
  e < CYCLE.inhale ->
  phaseParams e =
  {| currentPhase := "Inhale";
     phaseProgress := e / CYCLE.inhale;
     bubbleScale := 1 + easeInOutCubic (e / CYCLE.inhale) * 0.5;
     glowIntensity := 0.5 + easeInOutCubic (e / CYCLE.inhale) * 0.5 |}.
Proof.
  intros H. unfold phaseParams. apply ltb_lt in H. now rewrite H.
Qed.

Lemma inhale_progress (e : Q) : e == 4 * (e / CYCLE.inhale).
Proof. unfold CYCLE.inhale. field. Qed.

(** C6. For every cycle time [e] in [0, inhale) the bubble scale is
    [1 + easeInOutCubic(e/inhale) * 0.5]; it lies in [1.0, 1.5] and is
    monotonically non-decreasing in [e]; at [e = 0] it is exactly 1.0;
    and it tends to 1.5 as [e] approaches [inhale] from below. *)
Theorem inhale_scale :
  (forall e, 0 <= e -> e < CYCLE.inhale ->
     bubbleScale (phaseParams e)
       == 1 + easeInOutCubic (e / CYCLE.inhale) * 0.5 /\
     1 <= bubbleScale (phaseParams e) /\
     bubbleScale (phaseParams e) <= 1.5) /\
  (forall e1 e2, 0 <= e1 -> e1 <= e2 -> e2 < CYCLE.inhale ->
     bubbleScale (phaseParams e1) <= bubbleScale (phaseParams e2)) /\
  bubbleScale (phaseParams 0) == 1 /\
  (forall eps, 0 < eps ->
     exists delta, 0 < delta /\
       forall e, 0 <= e -> e < CYCLE.inhale -> CYCLE.inhale - delta < e ->
         1.5 - eps < bubbleScale (phaseParams e) /\
         bubbleScale (phaseParams e) <= 1.5).
Proof.
  assert (Hrange : forall e, 0 <= e -> e < CYCLE.inhale ->
            bubbleScale (phaseParams e)
              == 1 + easeInOutCubic (e / CYCLE.inhale) * 0.5 /\
            1 <= bubbleScale (phaseParams e) /\
            bubbleScale (phaseParams e) <= 1.5).
  { intros e H0 H4. rewrite (inhale_branch e H4). simpl.
    split; [reflexivity|].
    pose proof (inhale_progress e) as Hp. unfold CYCLE.inhale in H4.
    set (t := e / CYCLE.inhale) in *.
    destruct (easeInOutCubic_range t); lra. }
  split; [exact Hrange|]. split; [|split].
  - intros e1 e2 H0 H12 H4.
    assert (H4' : e1 < CYCLE.inhale) by lra.
    rewrite (inhale_branch e1 H4'), (inhale_branch e2 H4). simpl.
    pose proof (inhale_progress e1) as Hp1.
    pose proof (inhale_progress e2) as Hp2.
    unfold CYCLE.inhale in H4.
    set (t1 := e1 / CYCLE.inhale) in *. set (t2 := e2 / CYCLE.inhale) in *.
    pose proof (easeInOutCubic_mono t1 t2). lra.
  - reflexivity.
  - intros eps Heps.
    exists (if Qlt_le_dec eps 2 then eps else 2). split.
    + destruct (Qlt_le_dec eps 2); lra.
    + intros e H0 H4 Hd. split; [|now apply Hrange].
      rewrite (inhale_branch e H4). simpl.
      pose proof (inhale_progress e) as Hp. unfold CYCLE.inhale in H4, Hd.
      set (t := e / CYCLE.inhale) in *.
      assert (Hd2 : 4 - 2 < e /\ 4 - eps < e)
        by (destruct (Qlt_le_dec eps 2); split; lra).
      destruct Hd2 as [Hd2 Hde].
      unfold easeInOutCubic, Num.pow3, Qdiv. change (/ 2) with (1 # 2).
      assert (Et : Num.ltb t 0.5 = false) by (apply ltb_ge; lra).
      rewrite Et.
      destruct (cube_unit (- (2) * t + 2)) as [Hc0 Hc1]; try lra.
      assert (Hcu : (- (2) * t + 2) * (- (2) * t + 2) * (- (2) * t + 2)
                    <= (- (2) * t + 2)).
      { set (u := - (2) * t + 2) in *.
        assert (Hu : 0 <= u /\ u <= 1) by (unfold u; lra).
        assert (Huu : 0 <= u * (1 - u)) by (apply Qmult_le_0_compat; lra).
        assert (Huuu : 0 <= u * (1 - u) * (1 + u))
          by (apply Qmult_le_0_compat; lra).
        assert (E : u - u * u * u == u * (1 - u) * (1 + u)) by ring.
        lra. }
      lra.
Qed.

Lemma inhale_scale_witness :
  (0 <= 1 /\ 1 <= 3 /\ 3 < CYCLE.inhale) /\
  bubbleScale (phaseParams 1) <= bubbleScale (phaseParams 3).
Proof.
  split.
  - repeat split; try discriminate.
  - apply (proj1 (proj2 inhale_scale)); try discriminate. reflexivity.
Defined.

(** ** The sync score *)

Lemma clamp100_range (a : Q) : 0 <= Num.clamp100 a /\ Num.clamp100 a <= 100.
Proof.
  unfold Num.clamp100. split.
  - apply Q.le_max_l.
  - apply Q.max_lub; [discriminate | apply Q.le_min_l].
Qed.

Lemma isCorrectPhase_spec (p : string) : isCorrectPhase p = inhaleOrHold p.
Proof.
  unfold isCorrectPhase, inhaleOrHold.
  destruct (p =? "Inhale")%string; [reflexivity|].
  destruct (p =? "Hold")%string; reflexivity.
Qed.

Lemma step_syncInRange (s : State) (e : Event) :
  syncInRange s -> syncInRange (step s e).
Proof.
  unfold syncInRange. intros H.
  destruct e as [now | | timestamp | | | w h random]; simpl; try exact H;
    try (split; discriminate).
  unfold animate. destruct (isActive s); simpl; [|exact H].
  destruct (isPressingRef s); [|exact H].
  apply clamp100_range.
Qed.

Lemma run_syncInRange (events : list Event) :
  forall s, syncInRange s -> syncInRange (run s events).
Proof.
  unfold run. induction events as [|e events IH]; intros s H; simpl.
  - exact H.
  - apply IH. now apply step_syncInRange.
Qed.

(** C1. The sync score starts at 100, start and reset set it back to
    100, and after every sequence of press-begin/press-end events, frame
    updates, start and reset actions (and resizes) it lies in [0, 100]. *)
Theorem sync_always_in_range :
  syncPercentage initialState = 100 /\
  (forall s, syncPercentage (handleStart s) = 100 /\
             syncPercentage (handleReset s) = 100) /\
  (forall events : list Event,
     0 <= syncPercentage (run initialState events) /\
     syncPercentage (run initialState events) <= 100).
Proof.
  split; [reflexivity|]. split; [intros s; split; reflexivity|].
  intros events. apply run_syncInRange. split; discriminate.
Qed.

(** C3. On a frame where the pressing flag is set and the session is
    active, the sync score is adjusted by [+1 * 0.1] when the frame's
    phase is Inhale or Hold and by [-2 * 0.1] otherwise, and the result
    is clamped to [0, 100]; on a frame where the pressing flag is not
    set, or the session is not active, the sync score is unchanged. *)
Theorem frame_scoring (timestamp : Q) (s : State) :
  (isActive s = true -> isPressingRef s = true ->
     syncPercentage (animate timestamp s)
       = Qmax 0 (Qmin 100
           (syncPercentage s
            + (if inhaleOrHold (phase (animate timestamp s))
               then 1 else - (2)) * 0.1)) /\
     0 <= syncPercentage (animate timestamp s) /\
     syncPercentage (animate timestamp s) <= 100) /\
  (isPressingRef s = false \/ isActive s = false ->
     syncPercentage (animate timestamp s) = syncPercentage s).
Proof.
  split.
  - intros Ha Hp. unfold animate. rewrite Ha, Hp. simpl.
    rewrite isCorrectPhase_spec. split; [reflexivity|].
    apply (clamp100_range _).
  - intros H. unfold animate.
    destruct (isActive s); simpl; [|reflexivity].
    destruct H as [H | H]; [now rewrite H | discriminate].
Qed.

Lemma frame_scoring_witness :
  isActive pressingState = true /\ isPressingRef pressingState = true /\
  phase (animate 3000 pressingState) = "Inhale"%string /\
  syncPercentage (animate 3000 pressingState) == 50.1.
Proof.
  split; [reflexivity|]. split; [reflexivity|]. split; [reflexivity|].
  destruct (proj1 (frame_scoring 3000 pressingState) eq_refl eq_refl)
    as [E _].
  rewrite E. reflexivity.
Defined.

(** ** Start and reset *)

Lemma elapsed_unset (timestamp : Q) (s : State) :
  startTimeRef s = 0 -> elapsedAt timestamp s == 0.
Proof.
  intros H. unfold elapsedAt, startTimeAt. rewrite H. simpl. field.
Qed.

Lemma phaseAt_zero (e : Q) : e == 0 -> phaseAt e = "Inhale"%string.
Proof.
  intros H. unfold phaseAt.
  assert (Hc : cycleTimeOf e == 0).
  { rewrite rem_small; [exact H | rewrite H; discriminate |
                        rewrite H; reflexivity]. }
  now rewrite (currentPhase_compat _ 0 Hc).
Qed.

Lemma betweenTicks_origin (events : list Event) :
  forall s, forallb betweenTicks events = true ->
    isActive s = true -> startTimeRef s = 0 ->
    isActive (run s events) = true /\ startTimeRef (run s events) = 0.
Proof.
  unfold run. induction events as [|e events IH]; intros s Hev Ha Hs; simpl.
  - now split.
  - simpl in Hev. apply andb_true_iff in Hev as [He Hev].
    apply IH; [exact Hev | |];
      destruct e; simpl in *; try discriminate; auto.
Qed.

(** C7. The start action sets the sync score to 100 and resets the
    elapsed-time origin to unset (0), so that on the first frame after
    start (whatever presses, releases and resizes come in between, and
    whatever the frame's timestamp) the elapsed time is 0 and the
    reported phase is Inhale. *)
Theorem start_begins_at_inhale
  (s : State) (events : list Event) (timestamp : Q) :
  forallb betweenTicks events = true ->
  syncPercentage (handleStart s) = 100 /\
  startTimeRef (handleStart s) = 0 /\
  elapsedAt timestamp (run (handleStart s) events) == 0 /\
  phase (animate timestamp (run (handleStart s) events)) = "Inhale"%string.
Proof.
  intros Hev. split; [reflexivity|]. split; [reflexivity|].
  destruct (betweenTicks_origin events (handleStart s) Hev eq_refl eq_refl)
    as [Ha Hs].
  pose proof (elapsed_unset timestamp _ Hs) as He.
  split; [exact He|].
  unfold animate. rewrite Ha. simpl.
  now apply phaseAt_zero.
Qed.

Lemma start_begins_at_inhale_witness :
  phase (animate 123456
           (run (handleStart initialState) [PressBegin 120000; PressEnd]))
  = "Inhale"%string.
Proof.
  apply (start_begins_at_inhale initialState [PressBegin 120000; PressEnd]
           123456).
  reflexivity.
Defined.

(** C8. The reset action, from any prior state, deactivates the session,
    sets the reported phase to Ready, sets the sync score to 100 and
    clears the pressing flag. *)
Theorem reset_clears_session (s : State) :
  isActive (step s Reset) = false /\
  phase (step s Reset) = "Ready"%string /\
  syncPercentage (step s Reset) = 100 /\
  isPressingRef (step s Reset) = false.
Proof.
  repeat split.
Qed.

(** ** Particles *)

Lemma initParticles_length (c : Canvas) (random : nat -> Q) :
  List.length (initParticles c random) = 30%nat.
Proof.
  unfold initParticles. now rewrite length_map, length_seq.
Qed.

Lemma step_particle_count (s : State) (e : Event) :
  List.length (particlesRef s) = 30%nat ->
  List.length (particlesRef (step s e)) = 30%nat.
Proof.
  intros H. destruct e as [now | | timestamp | | | w h random];
    cbn [step]; try exact H.
  - unfold animate. destruct (isActive s); cbn [particlesRef negb];
      [|exact H].
    unfold drawParticles. now rewrite length_map.
  - unfold resizeCanvas. cbn [particlesRef]. now rewrite H.
Qed.

Lemma run_particle_count (events : list Event) :
  forall s, List.length (particlesRef s) = 30%nat ->
            List.length (particlesRef (run s events)) = 30%nat.
Proof.
  unfold run. induction events as [|e events IH]; intros s H; simpl.
  - exact H.
  - apply IH. now apply step_particle_count.
Qed.

(** C9. A resize that occurs while no particles exist initializes a
    particle set of exactly 30 particles; every subsequent resize,
    whatever happens in between, leaves the particle set untouched (the
    same particles, and the count stays 30). *)
Theorem resize_initializes_once
  (s : State) (w h : N) (random : nat -> Q) :
  particlesRef s = [] ->
  List.length (particlesRef (resizeCanvas w h random s)) = 30%nat /\
  (forall (events : list Event) (w' h' : N) (random' : nat -> Q),
     let s' := run (resizeCanvas w h random s) events in
     particlesRef (step s' (Resize w' h' random')) = particlesRef s' /\
     List.length (particlesRef (step s' (Resize w' h' random'))) = 30%nat).
Proof.
  intros Hempty.
  assert (H30 : List.length (particlesRef (resizeCanvas w h random s))
                = 30%nat).
  { unfold resizeCanvas. cbn [particlesRef]. rewrite Hempty.
    exact (initParticles_length _ random). }
  split; [exact H30|].
  intros events w' h' random' s'.
  pose proof (run_particle_count events _ H30) as Hrun.
  fold s' in Hrun. cbn [step]. unfold resizeCanvas. cbn [particlesRef].
  rewrite Hrun. now split.
Qed.

Lemma resize_initializes_once_witness :
  List.length (particlesRef (resizeCanvas 800 600 quarter initialState))
  = 30%nat.
Proof.
  apply (resize_initializes_once initialState 800 600 quarter).
  reflexivity.
Defined.

Lemma moveParticle_attributes (c : Canvas) (p : Particle.t) :
  attributes (moveParticle c p) = attributes p.
Proof. reflexivity. Qed.

Lemma drawParticles_attributes (c : Canvas) (particles : list Particle.t) :
  map attributes (drawParticles c particles) = map attributes particles.
Proof.
  unfold drawParticles. rewrite map_map.
  apply map_ext. intros p. apply moveParticle_attributes.
Qed.

(** C10. A frame update changes nothing of a particle but its position
    [x], [y]: the velocity [(vx, vy)], size, color and alpha of every
    particle, and the number and order of the particles, are the same
    after any number of frames as before. *)
Theorem frames_keep_attributes (s : State) (timestamps : list Q) :
  map attributes (particlesRef (run s (map Frame timestamps)))
  = map attributes (particlesRef s).
Proof.
  revert s. unfold run.
  induction timestamps as [|t timestamps IH]; intros s; simpl.
  - reflexivity.
  - rewrite IH. unfold animate.
    destruct (isActive s); simpl; [|reflexivity].
    apply drawParticles_attributes.
Qed.

Lemma widthQ_nonneg (c : Canvas) : 0 <= widthQ c.
Proof.
  unfold widthQ. change 0 with (inject_Z 0). rewrite <- Zle_Qle. lia.
Qed.

Lemma heightQ_nonneg (c : Canvas) : 0 <= heightQ c.
Proof.
  unfold heightQ. change 0 with (inject_Z 0). rewrite <- Zle_Qle. lia.
Qed.

(** The two wrap tests leave a coordinate in [0, bound], whatever it was
    before. *)
Lemma wrap_closed (bound v : Q) :
  0 <= bound ->
  let v2 := if Num.ltb v 0 then bound else v in
  let v3 := if Num.ltb bound v2 then 0 else v2 in
  0 <= v3 /\ v3 <= bound.
Proof.
  intros Hb. cbv zeta.
  destruct (Num.ltb v 0) eqn:E0.
  - destruct (Num.ltb bound bound) eqn:E1.
    + split; [discriminate | exact Hb].
    + split; [exact Hb | apply Qle_refl].
  - apply ltb_ge in E0.
    destruct (Num.ltb bound v) eqn:E1.
    + split; [discriminate | exact Hb].
    + apply ltb_ge in E1. now split.
Qed.

Lemma moveParticle_onSurface (c : Canvas) (p : Particle.t) :
  onSurface c (moveParticle c p).
Proof.
  unfold onSurface, moveParticle. cbn [Particle.x Particle.y]. split.
  - apply (wrap_closed (widthQ c)), widthQ_nonneg.
  - apply (wrap_closed (heightQ c)), heightQ_nonneg.
Qed.

Lemma animate_canvas (timestamp : Q) (s : State) :
  canvas (animate timestamp s) = canvas s.
Proof.
  unfold animate. now destruct (isActive s).
Qed.

Lemma animate_onSurface (timestamp : Q) (s : State) :
  Forall (onSurface (canvas s)) (particlesRef s) ->
  Forall (onSurface (canvas s)) (particlesRef (animate timestamp s)).
Proof.
  intros H. unfold animate.
  destruct (isActive s); cbn [negb particlesRef]; [|exact H].
  unfold drawParticles. apply Forall_map, Forall_forall.
  intros p _. apply moveParticle_onSurface.
Qed.

(** C2, as the code has it.  Every particle that starts within the
    closed rectangle [0, surfaceWidth] x [0, surfaceHeight] is within it
    after any number of frame updates: a particle that leaves through
    the left or the top edge is put on the opposite edge itself. *)
Theorem particles_stay_on_surface (s : State) (timestamps : list Q) :
  Forall (onSurface (canvas s)) (particlesRef s) ->
  Forall (onSurface (canvas s))
         (particlesRef (run s (map Frame timestamps))).
Proof.
  revert s. unfold run.
  induction timestamps as [|t timestamps IH]; intros s H; simpl.
  - exact H.
  - rewrite <- (animate_canvas t s).
    apply IH. rewrite animate_canvas. now apply animate_onSurface.
Qed.

Lemma particles_stay_on_surface_witness :
  Forall (onSurface (canvas pressingState))
         (particlesRef (run pressingState (map Frame [3000; 3016]))).
Proof.
  apply (particles_stay_on_surface pressingState [3000; 3016]).
  repeat constructor; discriminate.
Defined.

(** C2, as stated, fails: a particle inside the half-open rectangle
    [0, 800) x [0, 600) that crosses the left edge is put at
    [x = 800], outside of it. *)
Lemma particle_reaches_far_edge :
  Forall (inSurface (canvas pressingState)) (particlesRef pressingState) /\
  Forall (fun p => Particle.x p == widthQ (canvas pressingState))
         (particlesRef (run pressingState [Frame 3000])) /\
  ~ Forall (inSurface (canvas pressingState))
           (particlesRef (run pressingState [Frame 3000])).
Proof.
  split; [|split].
  - repeat constructor; discriminate.
  - repeat constructor.
  - intros H. inversion H as [|p l [[_ Hx] _] _].
    vm_compute in Hx. discriminate.
Qed.

(** * Further properties *)

(** ** The phase engine, over a whole cycle *)

Lemma cycleTimeOf_nonneg (e : Q) : 0 <= e -> 0 <= cycleTimeOf e.
Proof.
  intros He. rewrite (rem_modPeriod e He). apply modPeriod_range.
Qed.

(** X1. For a non-negative elapsed time the cycle time [elapsed %
    TOTAL_CYCLE] lies in [0, TOTAL_CYCLE). *)
Theorem cycleTime_range (e : Q) :
  0 <= e -> 0 <= cycleTimeOf e /\ cycleTimeOf e < TOTAL_CYCLE.
Proof.
  intros He. rewrite (rem_modPeriod e He). apply modPeriod_range.
Qed.

Lemma cycleTime_range_witness :
  0 <= cycleTimeOf 33 /\ cycleTimeOf 33 < TOTAL_CYCLE.
Proof.
  apply (cycleTime_range 33). discriminate.
Defined.

(** X2. The phase is decided by the cycle time alone: Inhale exactly
    below 4, Hold exactly on [4, 6), Exhale exactly on [6, 12) and Rest
    exactly from 12 on. *)
Theorem phase_windows (c : Q) :
  (currentPhase (phaseParams c) = "Inhale"%string <-> c < 4) /\
  (currentPhase (phaseParams c) = "Hold"%string <-> 4 <= c /\ c < 6) /\
  (currentPhase (phaseParams c) = "Exhale"%string <-> 6 <= c /\ c < 12) /\
  (currentPhase (phaseParams c) = "Rest"%string <-> 12 <= c).
Proof.
  unfold phaseParams.
  destruct (Num.ltb c CYCLE.inhale) eqn:E1;
    [apply ltb_lt in E1 | apply ltb_ge in E1;
     destruct (Num.ltb c (CYCLE.inhale + CYCLE.hold)) eqn:E2;
       [apply ltb_lt in E2 | apply ltb_ge in E2;
        destruct (Num.ltb c (CYCLE.inhale + CYCLE.hold + CYCLE.exhale))
          eqn:E3; [apply ltb_lt in E3 | apply ltb_ge in E3]]];
    unfold CYCLE.inhale, CYCLE.hold, CYCLE.exhale in *;
    cbn [currentPhase];
    repeat split; intros; try discriminate; try lra.
Qed.

Ltac phase_cases c :=
  unfold phaseParams;
  let E1 := fresh "E" in let E2 := fresh "E" in let E3 := fresh "E" in
  destruct (Num.ltb c CYCLE.inhale) eqn:E1;
    [apply ltb_lt in E1 | apply ltb_ge in E1;
     destruct (Num.ltb c (CYCLE.inhale + CYCLE.hold)) eqn:E2;
       [apply ltb_lt in E2 | apply ltb_ge in E2;
        destruct (Num.ltb c (CYCLE.inhale + CYCLE.hold + CYCLE.exhale))
          eqn:E3; [apply ltb_lt in E3 | apply ltb_ge in E3]]];
  unfold CYCLE.inhale, CYCLE.hold, CYCLE.exhale, CYCLE.rest in *.

Lemma div_by (c k : Q) : ~ k == 0 -> c == k * (c / k).
Proof. intros H. field. exact H. Qed.

(** X3. Within a cycle the progress through the current phase lies in
    [0, 1). *)
Theorem progress_range (c : Q) :
  0 <= c -> c < TOTAL_CYCLE ->
  0 <= phaseProgress (phaseParams c) /\ phaseProgress (phaseParams c) < 1.
Proof.
  intros H0 H1. pose proof period_14 as HT. rewrite HT in H1. clear HT.
  phase_cases c; cbn [phaseProgress].
  - pose proof (div_by c 4 ltac:(discriminate)) as Hd.
    set (p := c / 4) in *. lra.
  - pose proof (div_by (c - 4) 2 ltac:(discriminate)) as Hd.
    set (p := (c - 4) / 2) in *. lra.
  - pose proof (div_by (c - 4 - 2) 6 ltac:(discriminate)) as Hd.
    set (p := (c - 4 - 2) / 6) in *. lra.
  - pose proof (div_by (c - 4 - 2 - 6) 2 ltac:(discriminate)) as Hd.
    set (p := (c - 4 - 2 - 6) / 2) in *. lra.
Qed.

Lemma progress_range_witness :
  0 <= phaseProgress (phaseParams 5) /\ phaseProgress (phaseParams 5) < 1.
Proof.
  apply (progress_range 5); [discriminate | reflexivity].
Defined.

Lemma easeOutQuad_range (t : Q) :
  0 <= t -> t <= 1 -> 0 <= easeOutQuad t /\ easeOutQuad t <= 1.
Proof.
  intros H0 H1. unfold easeOutQuad.
  assert (Ha : 0 <= (1 - t) * (1 - t)) by (apply Qmult_le_0_compat; lra).
  assert (Hb : 0 <= t * (1 - t)) by (apply Qmult_le_0_compat; lra).
  assert (E : 1 - (1 - t) * (1 - t) == t + t * (1 - t)) by ring.
  lra.
Qed.


Lemma scale_glow_bounds (c : Q) :
  0 <= c ->
  (1 <= bubbleScale (phaseParams c) /\ bubbleScale (phaseParams c) <= 1.5) /\
  (0.5 <= glowIntensity (phaseParams c) /\
   glowIntensity (phaseParams c) <= 1).
Proof.
  intros H0. phase_cases c; cbn [bubbleScale glowIntensity].
  - pose proof (div_by c 4 ltac:(discriminate)) as Hd.
    set (p := c / 4) in *.
    destruct (easeInOutCubic_range p); lra.
  - split; split; discriminate.
  - pose proof (div_by (c - 4 - 2) 6 ltac:(discriminate)) as Hd.
    set (p := (c - 4 - 2) / 6) in *.
    destruct (easeOutQuad_range p); lra.
  - split; split; discriminate.
Qed.

(** X4. For every non-negative elapsed time the bubble scale of the
    frame lies in [1, 1.5] and its glow intensity in [0.5, 1]. *)
Theorem scale_and_glow_range (elapsed : Q) :
  0 <= elapsed ->
  let params := phaseParams (cycleTimeOf elapsed) in
  (1 <= bubbleScale params /\ bubbleScale params <= 1.5) /\
  (0.5 <= glowIntensity params /\ glowIntensity params <= 1).
Proof.
  intros He params.
  apply scale_glow_bounds.
  now apply cycleTimeOf_nonneg.
Qed.

Lemma scale_and_glow_range_witness :
  1 <= bubbleScale (phaseParams (cycleTimeOf 23)) /\
  bubbleScale (phaseParams (cycleTimeOf 23)) <= 1.5.
Proof.
  apply (scale_and_glow_range 23). discriminate.
Defined.





(** ** Particles, from creation on *)

Lemma widthQ_pos (c : Canvas) : (0 < width c)%N -> 0 < widthQ c.
Proof.
  intros H. unfold widthQ. change 0 with (inject_Z 0).
  rewrite <- Zlt_Qlt. lia.
Qed.

Lemma heightQ_pos (c : Canvas) : (0 < height c)%N -> 0 < heightQ c.
Proof.
  intros H. unfold heightQ. change 0 with (inject_Z 0).
  rewrite <- Zlt_Qlt. lia.
Qed.

Lemma scaled_random (r bound : Q) :
  0 <= r -> r < 1 -> 0 < bound -> 0 <= r * bound /\ r * bound < bound.
Proof.
  intros H0 H1 Hb. split.
  - apply Qmult_le_0_compat; lra.
  - assert (H : 0 < (1 - r) * bound) by (apply Qmult_lt_0_compat; lra).
    assert (E : bound - r * bound == (1 - r) * bound) by ring. lra.
Qed.

Lemma palette_index (r : Q) :
  0 <= r -> r < 1 ->
  In (nth (Z.to_nat (Qfloor (r * inject_Z (Z.of_nat (List.length colors)))))
          colors "undefined"%string) colors.
Proof.
  intros H0 H1.
  change (inject_Z (Z.of_nat (List.length colors))) with 3.
  set (q := r * 3).
  assert (Hq : 0 <= q /\ q < 3) by (unfold q; lra).
  assert (Hlo : (0 <= Qfloor q)%Z).
  { change 0%Z with (Qfloor 0). apply Qfloor_resp_le, Hq. }
  assert (Hhi : (Qfloor q < 3)%Z).
  { rewrite Zlt_Qlt. pose proof (Qfloor_le q). change (inject_Z 3) with 3.
    lra. }
  assert (Hn : (Z.to_nat (Qfloor q) < 3)%nat) by lia.
  destruct (Z.to_nat (Qfloor q)) as [|[|[|n]]]; simpl; auto; lia.
Qed.

(** X8. On a surface of positive width and height, and with values of
    [Math.random] in [0, 1), every particle made by [initParticles]
    lies in [0, width) x [0, height), has both velocity components in
    [-0.25, 0.25), a size in [1, 4), an alpha in [0.1, 0.4) and a color
    of the palette. *)
Theorem initParticles_fresh (c : Canvas) (random : nat -> Q) :
  (0 < width c)%N -> (0 < height c)%N ->
  (forall k, 0 <= random k /\ random k < 1) ->
  Forall (freshParticle c) (initParticles c random).
Proof.
  intros Hw Hh Hr. unfold initParticles.
  apply Forall_map, Forall_forall. intros i _.
  unfold freshParticle, inSurface, newParticle.
  cbn [Particle.x Particle.y Particle.vx Particle.vy Particle.size
       Particle.color Particle.alpha].
  pose proof (Hr (7 * i + 0)%nat) as [? ?].
  pose proof (Hr (7 * i + 1)%nat) as [? ?].
  pose proof (Hr (7 * i + 2)%nat) as [? ?].
  pose proof (Hr (7 * i + 3)%nat) as [? ?].
  pose proof (Hr (7 * i + 4)%nat) as [? ?].
  pose proof (Hr (7 * i + 5)%nat) as [? ?].
  pose proof (Hr (7 * i + 6)%nat) as [? ?].
  repeat split;
    try (apply scaled_random; auto using widthQ_pos, heightQ_pos);
    try lra.
  now apply palette_index.
Qed.

Lemma quarter_unit : forall k, 0 <= quarter k /\ quarter k < 1.
Proof. intros k. split; [discriminate | reflexivity]. Qed.

Lemma initParticles_fresh_witness :
  Forall (freshParticle edgeCanvas) (initParticles edgeCanvas quarter).
Proof.
  apply (initParticles_fresh edgeCanvas quarter);
    [reflexivity | reflexivity | exact quarter_unit].
Defined.

(** X9. After an active frame every particle lies on the closed
    surface, wherever it was before (for instance outside, after the
    window shrank). *)
Theorem frame_puts_particles_on_surface (timestamp : Q) (s : State) :
  isActive s = true ->
  Forall (onSurface (canvas (animate timestamp s)))
         (particlesRef (animate timestamp s)).
Proof.
  intros Ha. unfold animate. rewrite Ha. cbn [negb particlesRef canvas].
  unfold drawParticles. apply Forall_map, Forall_forall.
  intros p _. apply moveParticle_onSurface.
Qed.

Lemma frame_puts_particles_on_surface_witness :
  Forall (onSurface (canvas (animate 3000 pressingState)))
         (particlesRef (animate 3000 pressingState)).
Proof.
  apply (frame_puts_particles_on_surface 3000 pressingState). reflexivity.
Defined.

(** X10. A particle advances by its velocity when that keeps the
    coordinate in [0, bound]; a coordinate that would become negative
    is put at the bound, and one that would exceed the bound is put
    at 0. *)
Theorem moveParticle_cases (c : Canvas) (p : Particle.t) :
  let x1 := Particle.x p + Particle.vx p in
  let y1 := Particle.y p + Particle.vy p in
  ((0 <= x1 /\ x1 <= widthQ c -> Particle.x (moveParticle c p) == x1) /\
   (x1 < 0 -> Particle.x (moveParticle c p) == widthQ c) /\
   (widthQ c < x1 -> Particle.x (moveParticle c p) == 0)) /\
  ((0 <= y1 /\ y1 <= heightQ c -> Particle.y (moveParticle c p) == y1) /\
   (y1 < 0 -> Particle.y (moveParticle c p) == heightQ c) /\
   (heightQ c < y1 -> Particle.y (moveParticle c p) == 0)).
Proof.
  cbv zeta. unfold moveParticle. cbn [Particle.x Particle.y].
  pose proof (widthQ_nonneg c) as Hw. pose proof (heightQ_nonneg c) as Hh.
  split.
  - set (x1 := Particle.x p + Particle.vx p).
    destruct (Num.ltb x1 0) eqn:E0;
      [apply ltb_lt in E0 | apply ltb_ge in E0].
    + destruct (Num.ltb (widthQ c) (widthQ c)) eqn:E1;
        [apply ltb_lt in E1 | apply ltb_ge in E1];
        repeat split; intros; try reflexivity; lra.
    + destruct (Num.ltb (widthQ c) x1) eqn:E1;
        [apply ltb_lt in E1 | apply ltb_ge in E1];
        repeat split; intros; try reflexivity; lra.
  - set (y1 := Particle.y p + Particle.vy p).
    destruct (Num.ltb y1 0) eqn:E0;
      [apply ltb_lt in E0 | apply ltb_ge in E0].
    + destruct (Num.ltb (heightQ c) (heightQ c)) eqn:E1;
        [apply ltb_lt in E1 | apply ltb_ge in E1];
        repeat split; intros; try reflexivity; lra.
    + destruct (Num.ltb (heightQ c) y1) eqn:E1;
        [apply ltb_lt in E1 | apply ltb_ge in E1];
        repeat split; intros; try reflexivity; lra.
Qed.

Lemma moveParticle_cases_witness :
  Particle.x (moveParticle edgeCanvas edgeParticle) == widthQ edgeCanvas.
Proof.
  apply (proj1 (moveParticle_cases edgeCanvas edgeParticle)). reflexivity.
Defined.

Lemma step_particle_count_0_30 (s : State) (e : Event) :
  List.length (particlesRef s) = 0%nat \/
  List.length (particlesRef s) = 30%nat ->
  List.length (particlesRef (step s e)) = 0%nat \/
  List.length (particlesRef (step s e)) = 30%nat.
Proof.
  intros [H | H].
  - destruct e as [now | | timestamp | | | w h random]; cbn [step];
      try (left; exact H).
    + left. unfold animate. destruct (isActive s); cbn [particlesRef negb];
        [|exact H]. unfold drawParticles. now rewrite length_map.
    + right. unfold resizeCanvas. cbn [particlesRef]. rewrite H.
      exact (initParticles_length _ random).
  - right. now apply step_particle_count.
Qed.

(** X11. Whatever happens, the particle set of a session has 0 or 30
    particles, and 30 as soon as one resize has run. *)
Theorem particle_count (events : list Event) :
  (List.length (particlesRef (run initialState events)) = 0%nat \/
   List.length (particlesRef (run initialState events)) = 30%nat) /\
  (existsb isResize events = true ->
   List.length (particlesRef (run initialState events)) = 30%nat).
Proof.
  assert (G : forall s,
             (List.length (particlesRef s) = 0%nat \/
              List.length (particlesRef s) = 30%nat) ->
             (List.length (particlesRef (run s events)) = 0%nat \/
              List.length (particlesRef (run s events)) = 30%nat) /\
             (existsb isResize events = true ->
              List.length (particlesRef (run s events)) = 30%nat)).
  { unfold run. induction events as [|e events IH]; intros s H; simpl.
    - split; [exact H | discriminate].
    - destruct (IH (step s e) (step_particle_count_0_30 s e H)) as [I1 I2].
      split; [exact I1|]. intros Hex.
      apply orb_true_iff in Hex as [He | Hex]; [|now apply I2].
      destruct e; try discriminate.
      apply (run_particle_count events).
      cbn [step]. unfold resizeCanvas. cbn [particlesRef].
      destruct H as [H | H]; rewrite H;
        [exact (initParticles_length _ random) | exact H]. }
  apply G. now left.
Qed.

(** ** The session and its score *)

Lemma idle_step (s : State) (e : Event) :
  notStart e = true ->
  isActive s = false /\ phase s = "Ready"%string /\
  syncPercentage s = 100 /\ startTimeRef s = 0 ->
  isActive (step s e) = false /\ phase (step s e) = "Ready"%string /\
  syncPercentage (step s e) = 100 /\ startTimeRef (step s e) = 0.
Proof.
  intros He (Ha & Hp & Hs & Ho).
  destruct e as [now | | timestamp | | | w h random]; try discriminate;
    cbn [step]; try (now repeat split).
  unfold animate. rewrite Ha. now repeat split.
Qed.

(** X12. Until the first start the session stays inactive, the phase
    stays Ready, the score stays 100 and the origin stays unset,
    whatever presses, frames, resizes and resets occur. *)
Theorem idle_until_start (events : list Event) :
  forallb notStart events = true ->
  isActive (run initialState events) = false /\
  phase (run initialState events) = "Ready"%string /\
  syncPercentage (run initialState events) = 100 /\
  startTimeRef (run initialState events) = 0.
Proof.
  assert (G : forall s, forallb notStart events = true ->
            isActive s = false /\ phase s = "Ready"%string /\
            syncPercentage s = 100 /\ startTimeRef s = 0 ->
            isActive (run s events) = false /\
            phase (run s events) = "Ready"%string /\
            syncPercentage (run s events) = 100 /\
            startTimeRef (run s events) = 0).
  { unfold run. induction events as [|e events IH]; intros s Hev H; simpl.
    - exact H.
    - simpl in Hev. apply andb_true_iff in Hev as [He Hev].
      apply IH; [exact Hev | now apply idle_step]. }
  intros Hev. apply G; [exact Hev | now repeat split].
Qed.

Lemma idle_until_start_witness :
  phase (run initialState
           [Resize 800 600 quarter; PressBegin 10; Frame 16; Reset; Frame 33])
  = "Ready"%string.
Proof.
  apply (idle_until_start
           [Resize 800 600 quarter; PressBegin 10; Frame 16; Reset; Frame 33]).
  reflexivity.
Defined.

Lemma syncUpdate_up (prev : Q) :
  0 <= prev -> prev <= 100 ->
  syncUpdate true prev == Qmin 100 (prev + 0.1) /\
  prev <= syncUpdate true prev.
Proof.
  intros H0 H1. unfold syncUpdate, Num.clamp100.
  assert (E : prev + 1 * 0.1 == prev + 0.1) by ring.
  destruct (Q.min_spec 100 (prev + 1 * 0.1)) as [[Ha Hb] | [Ha Hb]];
  destruct (Q.min_spec 100 (prev + 0.1)) as [[Hc Hd] | [Hc Hd]];
  destruct (Q.max_spec 0 (Qmin 100 (prev + 1 * 0.1))) as [[He Hf] | [He Hf]];
    rewrite Hf, ?Hd; lra.
Qed.

Lemma syncUpdate_down (prev : Q) :
  0 <= prev -> prev <= 100 ->
  syncUpdate false prev == Qmax 0 (prev - 0.2) /\
  syncUpdate false prev <= prev /\
  (0 < prev -> syncUpdate false prev < prev).
Proof.
  intros H0 H1. unfold syncUpdate, Num.clamp100.
  assert (E : prev + - (2) * 0.1 == prev - 0.2) by ring.
  destruct (Q.min_spec 100 (prev + - (2) * 0.1)) as [[Ha Hb] | [Ha Hb]];
  destruct (Q.max_spec 0 (prev - 0.2)) as [[Hc Hd] | [Hc Hd]];
  destruct (Q.max_spec 0 (Qmin 100 (prev + - (2) * 0.1)))
    as [[He Hf] | [He Hf]];
    rewrite Hf, ?Hd; repeat split; intros; lra.
Qed.

(** X13. On an active frame with the pointer down and the score in
    [0, 100]: in Inhale or Hold the score becomes [min(100, score +
    0.1)] and does not fall; otherwise it becomes [max(0, score - 0.2)],
    does not rise, and falls strictly unless it is already 0. *)
Theorem pressed_frame_direction (timestamp : Q) (s : State) :
  isActive s = true -> isPressingRef s = true ->
  0 <= syncPercentage s -> syncPercentage s <= 100 ->
  (inhaleOrHold (phase (animate timestamp s)) = true ->
     syncPercentage (animate timestamp s)
       == Qmin 100 (syncPercentage s + 0.1) /\
     syncPercentage s <= syncPercentage (animate timestamp s)) /\
  (inhaleOrHold (phase (animate timestamp s)) = false ->
     syncPercentage (animate timestamp s)
       == Qmax 0 (syncPercentage s - 0.2) /\
     syncPercentage (animate timestamp s) <= syncPercentage s /\
     (0 < syncPercentage s ->
      syncPercentage (animate timestamp s) < syncPercentage s)).
Proof.
  intros Ha Hp H0 H1. unfold animate. rewrite Ha, Hp.
  cbn [negb phase syncPercentage]. rewrite isCorrectPhase_spec.
  split; intros Hc; rewrite Hc.
  - now apply syncUpdate_up.
  - now apply syncUpdate_down.
Qed.

Lemma pressed_frame_direction_witness :
  syncPercentage pressingState
  <= syncPercentage (animate 3000 pressingState).
Proof.
  apply (pressed_frame_direction 3000 pressingState);
    try reflexivity; discriminate.
Defined.





(** ** The origin of elapsed time *)

(** X15. The first frame of a started session makes its own timestamp
    the origin of elapsed time for the next frame; a first timestamp of
    0 is the unset value, so the next frame starts over at elapsed
    time 0. *)
Theorem origin_established (t1 t2 : Q) (s : State) :
  isActive s = true -> startTimeRef s = 0 ->
  (~ t1 == 0 -> elapsedAt t2 (animate t1 s) == (t2 - t1) / 1000) /\
  (t1 == 0 -> elapsedAt t2 (animate t1 s) == 0).
Proof.
  intros Ha Hs.
  assert (E : startTimeRef (animate t1 s) = t1).
  { unfold animate. rewrite Ha. cbn [negb startTimeRef].
    unfold startTimeAt. now rewrite Hs. }
  unfold elapsedAt at 1 2. unfold startTimeAt. rewrite E. split; intros H.
  - destruct (Qeq_bool t1 0) eqn:Eb; [|reflexivity].
    apply Qeq_bool_eq in Eb. contradiction.
  - rewrite (Qeq_eq_bool _ _ H). field.
Qed.

Lemma origin_established_witness :
  elapsedAt 3500 (animate 1000 (handleStart initialState))
  == (3500 - 1000) / 1000.
Proof.
  apply (origin_established 1000 3500 (handleStart initialState));
    try reflexivity. discriminate.
Defined.

Lemma animate_keeps_origin (t : Q) (s : State) :
  Qeq_bool (startTimeRef s) 0 = false ->
  startTimeRef (animate t s) = startTimeRef s.
Proof.
  intros H. unfold animate. destruct (isActive s); cbn [negb startTimeRef];
    [|reflexivity]. unfold startTimeAt. now rewrite H.
Qed.


(** X16. Once the origin of a session is set, frames leave it as it
    is, and the elapsed time of a frame is its timestamp minus the
    origin, in seconds. *)
Theorem origin_kept (s : State) (timestamps : list Q) (t : Q) :
  ~ startTimeRef s == 0 ->
  startTimeRef (run s (map Frame timestamps)) = startTimeRef s /\
  elapsedAt t (run s (map Frame timestamps))
    == (t - startTimeRef s) / 1000.
Proof.
  intros H.
  assert (Hb : Qeq_bool (startTimeRef s) 0 = false).
  { destruct (Qeq_bool (startTimeRef s) 0) eqn:E; [|reflexivity].
    apply Qeq_bool_eq in E. contradiction. }
  assert (G : startTimeRef (run s (map Frame timestamps)) = startTimeRef s).
  { clear H. revert s Hb. unfold run.
    induction timestamps as [|t' ts IH]; intros s Hb; simpl.
    - reflexivity.
    - rewrite IH; rewrite animate_keeps_origin; auto. }
  split; [exact G|].
  unfold elapsedAt, startTimeAt. rewrite G, Hb. reflexivity.
Qed.

Lemma origin_kept_witness :
  startTimeRef (run pressingState (map Frame [3000; 3016; 3033])) = 1000.
Proof.
  apply (origin_kept pressingState [3000; 3016; 3033] 0). discriminate.
Defined.

(** ** What is shown *)

Lemma mathRound_range (a : Q) :
  0 <= a -> a <= 100 -> (0 <= mathRound a <= 100)%Z.
Proof.
  intros H0 H1. unfold mathRound. split.
  - change 0%Z with (Qfloor 0). apply Qfloor_resp_le. lra.
  - assert (H : inject_Z (Qfloor (a + 0.5)) < inject_Z 101).
    { pose proof (Qfloor_le (a + 0.5)). change (inject_Z 101) with 101.
      lra. }
    rewrite <- Zlt_Qlt in H. lia.
Qed.

(** X17. The sync percentage shown in the overlay is a whole number
    from 0 to 100. *)
Theorem displayed_sync_range (events : list Event) (n : Z) :
  syncIndicator (render (run initialState events)) = Some n ->
  (0 <= n <= 100)%Z.
Proof.
  unfold render. cbn [syncIndicator].
  destruct (isActive (run initialState events)); [|discriminate].
  intros H. injection H as <-.
  destruct (run_syncInRange events initialState) as [H0 H1].
  - split; discriminate.
  - now apply mathRound_range.
Qed.

Lemma displayed_sync_range_witness :
  syncIndicator (render (run initialState [Start; PressBegin 5; Frame 1000]))
  = Some 100%Z /\
  (0 <= 100 <= 100)%Z.
Proof.
  split; [reflexivity|].
  apply (displayed_sync_range [Start; PressBegin 5; Frame 1000]).
  reflexivity.
Defined.

(** ** Scoring across frames *)




(** ** The bubble *)

Lemma half (a : Q) : a == 2 * (a / 2).
Proof. field. Qed.

Lemma eighth (a : Q) : a == 8 * (a / 8).
Proof. field. Qed.

Lemma scaled_radius (b k : Q) :
  0 <= b -> 1 <= k -> k <= 1.5 -> b <= b * k /\ b * k <= b * 1.5.
Proof.
  intros Hb H1 H2.
  assert (Ha : 0 <= b * (k - 1)) by (apply Qmult_le_0_compat; lra).
  assert (Hc : 0 <= b * (1.5 - k)) by (apply Qmult_le_0_compat; lra).
  assert (E1 : b * (k - 1) == b * k - b) by ring.
  assert (E2 : b * (1.5 - k) == b * 1.5 - b * k) by ring.
  lra.
Qed.

(** X18. For a non-negative cycle time the three circles of the
    bubble (glow, body, highlight) lie within the surface, and the
    radius of the body is between 1 and 1.5 times [min(width, height) /
    8]. *)
Theorem bubble_fits_canvas (c : Canvas) (cycleTime : Q) :
  0 <= cycleTime ->
  let layers := drawBubble c (phaseParams cycleTime) in
  arcOnCanvas c (glowArc layers) /\
  arcOnCanvas c (bodyArc layers) /\
  arcOnCanvas c (highlightArc layers) /\
  Qmin (widthQ c) (heightQ c) / 8 <= arcRadius (bodyArc layers) /\
  arcRadius (bodyArc layers) <= Qmin (widthQ c) (heightQ c) / 8 * 1.5.
Proof.
  intros H0. cbv zeta.
  destruct (scale_glow_bounds cycleTime H0) as [[S1 S2] _].
  unfold drawBubble, arcOnCanvas.
  cbn [glowArc bodyArc highlightArc arcX arcY arcRadius].
  pose proof (widthQ_nonneg c) as Hw. pose proof (heightQ_nonneg c) as Hh.
  pose proof (Q.le_min_l (widthQ c) (heightQ c)) as Hl.
  pose proof (Q.le_min_r (widthQ c) (heightQ c)) as Hr.
  assert (Hm : 0 <= Qmin (widthQ c) (heightQ c))
    by (apply Q.min_glb; assumption).
  pose proof (half (widthQ c)) as Ex. pose proof (half (heightQ c)) as Ey.
  pose proof (eighth (Qmin (widthQ c) (heightQ c))) as Eb.
  set (m := Qmin (widthQ c) (heightQ c)) in *.
  set (cx := widthQ c / 2) in *. set (cy := heightQ c / 2) in *.
  set (b := m / 8) in *.
  assert (Hb : 0 <= b) by lra.
  destruct (scaled_radius b _ Hb S1 S2) as [R1 R2].
  set (r := b * bubbleScale (phaseParams cycleTime)) in *.
  repeat split; lra.
Qed.

Lemma bubble_fits_canvas_witness :
  arcOnCanvas edgeCanvas (glowArc (drawBubble edgeCanvas (phaseParams 5))).
Proof.
  apply (bubble_fits_canvas edgeCanvas 5). discriminate.
Defined.

(** X19. On a frame whose timestamp is not before the origin, every
    color stop of the bubble's three gradients has an alpha in
    [0, 1]. *)
Theorem gradient_alphas (timestamp : Q) (s : State) :
  0 <= elapsedAt timestamp s ->
  Forall (fun stop : Q * Q => 0 <= snd stop /\ snd stop <= 1)
         (glowStops (frameBubble timestamp s)
          ++ bodyStops (frameBubble timestamp s)
          ++ highlightStops (frameBubble timestamp s)).
Proof.
  intros He. unfold frameBubble.
  destruct (scale_glow_bounds _ (cycleTimeOf_nonneg _ He)) as [_ [G1 G2]].
  set (g := glowIntensity (phaseParams (cycleTimeOf (elapsedAt timestamp s))))
    in *.
  unfold drawBubble. cbn [glowStops bodyStops highlightStops app].
  fold g. repeat constructor; cbn [snd]; try discriminate; lra.
Qed.

Lemma gradient_alphas_witness :
  Forall (fun stop : Q * Q => 0 <= snd stop /\ snd stop <= 1)
         (glowStops (frameBubble 3000 pressingState)
          ++ bodyStops (frameBubble 3000 pressingState)
          ++ highlightStops (frameBubble 3000 pressingState)).
Proof.
  apply (gradient_alphas 3000 pressingState). discriminate.
Defined.
